(** * arrow/python/decimal.cc: precision and scale of Python decimals

    A shallow embedding of [cpp/src/arrow/python/decimal.cc] and the
    properties its design document states about it.

    - [int32_t] values are integers of [Z]; a conversion to [int32_t]
      ([static_cast]) wraps, signed arithmetic that leaves the range is
      undefined behaviour in C++ and is modelled as such ([Undefined]).
    - [DCHECK]s are compiled out of release builds and are not modelled.
    - A [PyObject*] is modelled by what this file asks of it. *)

From Stdlib Require Import ZArith List String Ascii Bool Lia.
From Stdlib Require Import Permutation Sorted DecimalString.
Import ListNotations.
Local Open Scope Z_scope.

(** ** Machine integers *)

Module Int32.
Definition min : Z := -2147483648.
Definition max : Z := 2147483647.

Definition in_range (z : Z) : Prop := min <= z <= max.
Definition in_rangeb (z : Z) : bool := (min <=? z) && (z <=? max).

(** [static_cast<int32_t>] of a wider integer. *)
Definition wrap (z : Z) : Z := (z + 2147483648) mod 4294967296 - 2147483648.
End Int32.

(** ** Computations with undefined behaviour *)

Inductive cpp (A : Type) : Type :=
| Ret (a : A)
| Undefined.
Arguments Ret {A} a.
Arguments Undefined {A}.

Definition bind {A B : Type} (c : cpp A) (k : A -> cpp B) : cpp B :=
  match c with
  | Ret a => k a
  | Undefined => Undefined
  end.

Notation "x <- c ;; k" := (bind c (fun x => k))
  (at level 61, c at next level, right associativity).
Notation "' pat <- c ;; k" := (bind c (fun x => match x with pat => k end))
  (at level 61, pat pattern, c at next level, right associativity).

(** The result of a signed [int32_t] operation whose exact value is [z]. *)
Definition checked (z : Z) : cpp Z :=
  if Int32.in_rangeb z then Ret z else Undefined.

Definition add32 (a b : Z) : cpp Z := checked (a + b).
Definition sub32 (a b : Z) : cpp Z := checked (a - b).
Definition mul32 (a b : Z) : cpp Z := checked (a * b).
Definition neg32 (a : Z) : cpp Z := checked (- a).
Definition abs32 (a : Z) : cpp Z := checked (Z.abs a).

(** ** Status *)

(** Modelled from the spec: [arrow/status.h] is not among the sources.
    The file builds [Status::OK()] and [Status::Invalid(msg)] itself;
    every other status reaches it from a callee (the literal parser, the
    rescale primitive, a pending Python exception turned into a status by
    [RETURN_IF_PYERROR]) and is only passed on. The design document calls
    the failures MalformedInput, PrecisionOverflow and RescaleOverflow. *)
Inductive Status : Type :=
| OK
| Invalid (msg : string)
| PythonError (msg : string)
| Foreign (kind msg : string).

Definition ok (s : Status) : bool :=
  match s with
  | OK => true
  | _ => false
  end.

(** ** Python objects *)

(** The [exponent] attribute of a [DecimalTuple]: an integer, or a letter
    for the special values (['n'], ['N'], ['F']). *)
Inductive PyExponent : Type :=
| PyInt (z : Z)
| PyStr (s : string).

Record DecimalTuple : Type := mkDecimalTuple {
  digits : list Z;
  exponent : PyExponent
}.

(** A [PyObject*], by what this file asks of it. *)
Record PyObject : Type := mkPyObject {
  py_is_decimal : bool;                (* its type derives from decimal.Decimal *)
  py_is_nan : bool;                    (* obj.is_nan() is true *)
  py_as_tuple : option DecimalTuple;   (* obj.as_tuple(); None when it raises *)
  py_str : option string               (* str(obj); None when it raises *)
}.

(** [PyLong_AsLong]: the value of a Python integer that fits a C [long]. *)
Definition PyLong_AsLong (e : PyExponent) : Status + Z :=
  match e with
  | PyInt z =>
      if (-9223372036854775808 <=? z) && (z <=? 9223372036854775807)
      then inr z
      else inl (PythonError "OverflowError")
  | PyStr _ => inl (PythonError "TypeError")
  end.

(** [PyObject_StdStringStr] of [arrow/python/helpers.h]: [str(obj)]. *)
Definition PyObject_StdStringStr (obj : PyObject) (out : string) : Status * string :=
  match py_str obj with
  | Some s => (OK, s)
  | None => (PythonError "str", out)
  end.

Definition PythonDecimalToString (python_decimal : PyObject) (out : string)
  : Status * string :=
  PyObject_StdStringStr python_decimal out.

Definition PyDecimal_Check (obj : PyObject) : bool := py_is_decimal obj.

Definition PyDecimal_ISNAN (obj : PyObject) : bool := py_is_nan obj.

(** ** Inference of precision and scale *)

Definition b2z (b : bool) : Z := if b then 1 else 0.

(** Lines 76-92 of [InferDecimalPrecisionAndScale]: the arithmetic on the
    number of digits and the exponent; the result is [(precision, scale)]. *)
Definition Infer (num_digits exponent : Z) : cpp (Z * Z) :=
  abs_exponent <- abs32 exponent ;;
  '(num_additional_zeros, scale) <-
    (if num_digits <=? abs_exponent then
       zeros <- (if exponent <? 0 then sub32 abs_exponent num_digits
                 else Ret exponent) ;;
       minus_exponent <- neg32 exponent ;;
       scale <- mul32 (b2z (exponent <? 0)) minus_exponent ;;
       Ret (zeros, scale)
     else
       minus_exponent <- neg32 exponent ;;
       Ret (0, minus_exponent)) ;;
  precision <- add32 num_digits num_additional_zeros ;;
  Ret (precision, scale).

(** [InferDecimalPrecisionAndScale(python_decimal, &precision, &scale)].
    [precision] and [scale] are what the caller's variables hold before the
    call; they are written only on the path that returns [Status::OK()]. *)
Definition InferDecimalPrecisionAndScale
    (python_decimal : PyObject) (precision scale : Z) : cpp (Status * Z * Z) :=
  match py_as_tuple python_decimal with
  | None => Ret (PythonError "as_tuple", precision, scale)
  | Some as_tuple =>
      let num_digits := Int32.wrap (Z.of_nat (List.length (digits as_tuple))) in
      match PyLong_AsLong (exponent as_tuple) with
      | inl err => Ret (err, precision, scale)
      | inr long_exponent =>
          let exponent := Int32.wrap long_exponent in
          '(precision, scale) <- Infer num_digits exponent ;;
          Ret (OK, precision, scale)
      end
  end.

(** ** The metadata of a column *)

Record DecimalMetadata : Type := mkDecimalMetadata {
  precision_ : Z;
  scale_ : Z
}.

(** [DecimalMetadata::DecimalMetadata()]. *)
Definition DecimalMetadata_default : DecimalMetadata :=
  mkDecimalMetadata Int32.min Int32.min.

(** [DecimalMetadata::Update(int32_t, int32_t)]: the status and the object
    after the call. *)
Definition Update (self : DecimalMetadata)
    (suggested_precision suggested_scale : Z) : cpp (Status * DecimalMetadata) :=
  let current_precision := precision_ self in
  let self := mkDecimalMetadata (Z.max current_precision suggested_precision)
                                (scale_ self) in
  let current_scale := scale_ self in
  let self := mkDecimalMetadata (precision_ self)
                                (Z.max current_scale suggested_scale) in
  self <- (if (suggested_scale =? 0) && (current_precision <? suggested_precision)
           then
             sum <- add32 (precision_ self) (scale_ self) ;;
             Ret (mkDecimalMetadata sum (scale_ self))
           else Ret self) ;;
  Ret (OK, self).

(** [DecimalMetadata::Update] on a Python object. *)
Definition Update_object (self : DecimalMetadata) (object : PyObject)
  : cpp (Status * DecimalMetadata) :=
  let is_decimal := PyDecimal_Check object in
  if negb is_decimal || PyDecimal_ISNAN object then Ret (OK, self)
  else
    '(status, precision, scale) <- InferDecimalPrecisionAndScale object 0 0 ;;
    if ok status then Update self precision scale else Ret (status, self).

(** A pass over a column: the suggestions folded in arrival order. *)
Fixpoint UpdateAll (self : DecimalMetadata) (suggestions : list (Z * Z))
  : cpp DecimalMetadata :=
  match suggestions with
  | [] => Ret self
  | (p, s) :: rest =>
      '(_, self) <- Update self p s ;;
      UpdateAll self rest
  end.

(** The same pass, keeping the object after every call. *)
Fixpoint UpdateTrace (self : DecimalMetadata) (suggestions : list (Z * Z))
  : cpp (list DecimalMetadata) :=
  match suggestions with
  | [] => Ret []
  | (p, s) :: rest =>
      '(_, self) <- Update self p s ;;
      states <- UpdateTrace self rest ;;
      Ret (self :: states)
  end.

(** The aggregator rule as the design document writes it, on integers
    without bound. *)
Definition Update_spec (meta : DecimalMetadata) (suggested_precision suggested_scale : Z)
  : DecimalMetadata :=
  let new_precision := Z.max (precision_ meta) suggested_precision in
  let new_scale := Z.max (scale_ meta) suggested_scale in
  if (suggested_scale =? 0) && (suggested_precision >? precision_ meta)
  then mkDecimalMetadata (new_precision + new_scale) new_scale
  else mkDecimalMetadata new_precision new_scale.

(** The largest of a start value and the values of a list. *)
Definition running_max (start : Z) (values : list Z) : Z :=
  fold_left Z.max values start.

Definition meta_le (a b : DecimalMetadata) : Prop :=
  precision_ a <= precision_ b /\ scale_ a <= scale_ b.

(** ** Conversion to a 128-bit decimal *)

(** A [Decimal128]: its two's complement value. *)
Definition Decimal128 : Type := Z.

Record DecimalType : Type := mkDecimalType {
  type_precision : Z;
  type_scale : Z
}.

(** [arrow/util/decimal.h], whose code is not among the sources: the two
    members of [Decimal128] this file calls. [FromString s out] gives the
    status, [*out] after the call, and the inferred precision and scale;
    [Rescale self original_scale new_scale] gives the status and [*out]
    after the call ([out] is the object itself at the call site). *)
Class Decimal128Ops : Type := {
  FromString : string -> Decimal128 -> Status * Decimal128 * Z * Z;
  Rescale : Decimal128 -> Z -> Z -> Status * Decimal128
}.

(** [operator<<] of an [int32_t] on a stream. *)
Definition show_int32 (z : Z) : string := NilZero.string_of_int (Z.to_int z).

Definition precision_message (inferred_precision precision : Z) : string :=
  ("Decimal type with precision " ++ show_int32 inferred_precision
   ++ " does not fit into precision inferred from first array element: "
   ++ show_int32 precision)%string.

(** [DecimalFromPythonDecimal(python_decimal, arrow_type, out)]: the status
    and [*out] after the call. *)
Definition DecimalFromPythonDecimal {ops : Decimal128Ops}
    (python_decimal : PyObject) (arrow_type : DecimalType) (out : Decimal128)
  : Status * Decimal128 :=
  let '(status, string) := PythonDecimalToString python_decimal EmptyString in
  if negb (ok status) then (status, out) else
  let '(status, out, inferred_precision, inferred_scale) := FromString string out in
  if negb (ok status) then (status, out) else
  let precision := type_precision arrow_type in
  let scale := type_scale arrow_type in
  if inferred_precision >? precision
  then (Invalid (precision_message inferred_precision precision), out)
  else if negb (scale =? inferred_scale)
  then
    let '(status, out) := Rescale out inferred_scale scale in
    if negb (ok status) then (status, out) else (OK, out)
  else (OK, out).

(** ** The collaborators of the design document *)

Definition fits128 (z : Z) : bool :=
  (- 2 ^ 127 <=? z) && (z <? 2 ^ 127).

Definition digit_of (c : ascii) : option Z :=
  let n := Z.of_nat (nat_of_ascii c) in
  if (48 <=? n) && (n <=? 57) then Some (n - 48) else None.

Fixpoint take_digits (s : string) : list Z * string :=
  match s with
  | EmptyString => ([], EmptyString)
  | String c rest =>
      match digit_of c with
      | Some d => let '(ds, r) := take_digits rest in (d :: ds, r)
      | None => ([], s)
      end
  end.

Definition digits_value (ds : list Z) : Z :=
  fold_left (fun acc d => 10 * acc + d) ds 0.

Fixpoint strip_zeros (ds : list Z) : list Z :=
  match ds with
  | 0 :: rest => strip_zeros rest
  | _ => ds
  end.

(** Modelled from the spec: the generic decimal literal parser,
    [parse(text) -> (int128, precision, scale)], failing on malformed input.
    A literal is an optional sign, digits, and optionally a point and more
    digits; the precision is the number of digits from the first non-zero
    one, the scale the number of digits after the point. *)
Definition parse (text : string) : option (Z * Z * Z) :=
  let '(negative, body) :=
    match text with
    | String "-" r => (true, r)
    | String "+" r => (false, r)
    | _ => (false, text)
    end in
  let '(whole, rest) := take_digits body in
  let fraction :=
    match rest with
    | EmptyString => Some []
    | String "." r =>
        match take_digits r with
        | (frac, EmptyString) => Some frac
        | _ => None
        end
    | _ => None
    end in
  match fraction with
  | None => None
  | Some frac =>
      let all := (whole ++ frac)%list in
      match all with
      | [] => None
      | _ =>
          let magnitude := digits_value all in
          Some (if negative then - magnitude else magnitude,
                Z.of_nat (List.length (strip_zeros all)),
                Z.of_nat (List.length frac))
      end
  end.

(** Modelled from the spec: the rescale primitive,
    [rescale(value, from_scale, to_scale) -> int128]: a multiplication by
    [10^(to_scale - from_scale)] when the target scale is larger, failing
    when the product leaves 128 bits; a truncating division otherwise. *)
Definition rescale (value from_scale to_scale : Z) : option Z :=
  if from_scale <? to_scale then
    let r := value * 10 ^ (to_scale - from_scale) in
    if fits128 r then Some r else None
  else Some (Z.quot value (10 ^ (from_scale - to_scale))).

#[local] Instance SpecDecimal128 : Decimal128Ops := {
  FromString text out :=
    match parse text with
    | Some (value, precision, scale) =>
        if fits128 value then (OK, value, precision, scale)
        else (Foreign "MalformedInput" text, out, 0, 0)
    | None => (Foreign "MalformedInput" text, out, 0, 0)
    end;
  Rescale self original_scale new_scale :=
    match rescale self original_scale new_scale with
    | Some r => (OK, r)
    | None => (Foreign "RescaleOverflow" "", self)
    end
}.

(** A [decimal.Decimal] built from a literal without exponent. *)
Definition decimal_object (ds : list Z) (e : Z) (text : string) : PyObject :=
  mkPyObject true false (Some (mkDecimalTuple ds (PyInt e))) (Some text).

(** [decimal.Decimal('NaN')]. *)
Definition nan_object : PyObject :=
  mkPyObject true true (Some (mkDecimalTuple [] (PyStr "n"))) (Some "NaN"%string).

(** * Properties *)

(** Unfolds the int32 operations down to [checked]. *)
Ltac unfold32 := unfold add32, sub32, mul32, neg32, abs32, b2z.

Lemma in_rangeb_true (z : Z) : Int32.in_range z -> Int32.in_rangeb z = true.
Proof.
  unfold Int32.in_range, Int32.in_rangeb. intros [Hlo Hhi].
  apply andb_true_iff. split; apply Z.leb_le; assumption.
Qed.

Lemma in_rangeb_false (z : Z) : ~ Int32.in_range z -> Int32.in_rangeb z = false.
Proof.
  unfold Int32.in_range, Int32.in_rangeb. intros H.
  destruct (Int32.min <=? z) eqn:Hlo; destruct (z <=? Int32.max) eqn:Hhi;
    try reflexivity.
  exfalso. apply H. split; apply Z.leb_le; assumption.
Qed.

Lemma checked_in_range (z : Z) : Int32.in_range z -> checked z = Ret z.
Proof. intros H. unfold checked. now rewrite in_rangeb_true. Qed.

(** Settles [checked z] when [lia] can place [z] in the int32 range. *)
Ltac in32 :=
  repeat first
    [ progress cbn [bind]
    | rewrite checked_in_range
        by (unfold Int32.in_range, Int32.min, Int32.max in *; lia) ].

Lemma checked_Ret (z r : Z) : checked z = Ret r -> r = z /\ Int32.in_range z.
Proof.
  unfold checked, Int32.in_rangeb, Int32.in_range.
  destruct (Int32.min <=? z) eqn:Hlo; destruct (z <=? Int32.max) eqn:Hhi;
    simpl; intros H; inversion H; subst.
  split; [reflexivity | split; apply Z.leb_le; assumption].
Qed.

Lemma checked_out_of_range (z : Z) : ~ Int32.in_range z -> checked z = Undefined.
Proof. intros H. unfold checked. now rewrite in_rangeb_false. Qed.

Lemma bind_Ret {A B : Type} (c : cpp A) (k : A -> cpp B) (b : B) :
  bind c k = Ret b -> exists a, c = Ret a /\ k a = Ret b.
Proof.
  destruct c as [a | ]; simpl; intros H.
  - exists a. split; [reflexivity | exact H].
  - discriminate H.
Qed.

(** ** Infer *)

(** More stored digits than the exponent is long: the digits are the
    precision and the scale is the exponent negated, whatever its sign. *)
Lemma Infer_more_digits (d e : Z) :
  Int32.in_range d -> Z.abs e < d -> Infer d e = Ret (d, - e).
Proof.
  intros Hd He. unfold Infer. unfold32. in32.
  destruct (d <=? Z.abs e) eqn:Hcmp; [apply Z.leb_le in Hcmp; lia | ].
  in32. now rewrite Z.add_0_r.
Qed.

(** Leading zeros: a negative exponent at least as long as the digits. *)
Lemma Infer_leading_zeros (d e : Z) :
  0 <= d -> e < 0 -> Int32.min < e -> d <= - e -> Infer d e = Ret (- e, - e).
Proof.
  intros Hd He Hmin Hle. unfold Infer. unfold32.
  rewrite (Z.abs_neq e) by lia. in32.
  destruct (d <=? - e) eqn:Hcmp; [ | apply Z.leb_gt in Hcmp; lia].
  destruct (e <? 0) eqn:Hneg; [ | apply Z.ltb_ge in Hneg; lia].
  in32. rewrite Z.mul_1_l. in32.
  replace (d + (- e - d)) with (- e) by lia. now in32.
Qed.

(** Trailing zeros: a positive exponent at least as long as the digits. *)
Lemma Infer_trailing_zeros (d e : Z) :
  0 <= d -> 0 < e -> d <= e -> d + e <= Int32.max ->
  Infer d e = Ret (d + e, 0).
Proof.
  intros Hd He Hle Hsum. unfold Infer. unfold32.
  rewrite (Z.abs_eq e) by lia.
  in32.
  destruct (d <=? e) eqn:Hcmp; [ | apply Z.leb_gt in Hcmp; lia].
  destruct (e <? 0) eqn:Hneg; [apply Z.ltb_lt in Hneg; lia | ].
  cbn [bind]. in32. rewrite Z.mul_0_l. now in32.
Qed.

(** The degenerate input: no digit and exponent zero. *)
Lemma Infer_no_digit_no_exponent : Infer 0 0 = Ret (0, 0).
Proof. reflexivity. Qed.

(** The most negative exponent has no absolute value in [int32_t]. *)
Lemma Infer_min_exponent (d : Z) : Infer d Int32.min = Undefined.
Proof. reflexivity. Qed.

(** Trailing zeros that carry the precision past [INT32_MAX]. *)
Lemma Infer_precision_overflow (d e : Z) :
  0 <= d -> d <= e -> e <= Int32.max -> Int32.max < d + e ->
  Infer d e = Undefined.
Proof.
  intros Hd Hle He Hsum. unfold Infer. unfold32.
  rewrite (Z.abs_eq e) by lia. in32.
  destruct (d <=? e) eqn:Hcmp; [ | apply Z.leb_gt in Hcmp; lia].
  destruct (e <? 0) eqn:Hneg; [apply Z.ltb_lt in Hneg; lia | ].
  cbn [bind]. in32. rewrite Z.mul_0_l. in32.
  rewrite checked_out_of_range; [reflexivity | ].
  unfold Int32.in_range. lia.
Qed.

(** C9: the three fixed vectors of the design document. Digits [1,2,3] with
    exponent -2 give precision 3 and scale 2; digit [5] with exponent 3 gives
    precision 4 and scale 0; digit [9] with exponent 0 gives precision 1 and
    scale 0. Each is run through the whole function, from the digits tuple
    and the exponent attribute of the Python object. *)
Theorem Infer_test_vectors :
  InferDecimalPrecisionAndScale (decimal_object [1; 2; 3] (-2) "1.23") 0 0
    = Ret (OK, 3, 2)
  /\ InferDecimalPrecisionAndScale (decimal_object [5] 3 "5E+3") 0 0
    = Ret (OK, 4, 0)
  /\ InferDecimalPrecisionAndScale (decimal_object [9] 0 "9") 0 0
    = Ret (OK, 1, 0)
  /\ Infer 3 (-2) = Ret (3, 2)
  /\ Infer 1 3 = Ret (4, 0)
  /\ Infer 1 0 = Ret (1, 0).
Proof. repeat split; vm_compute; reflexivity. Qed.

(** With more digits than the exponent is long and an exponent that is not
    positive, the precision is the digit count and the scale is the exponent
    negated, which is not negative. *)
Lemma Infer_digits_exceed_exponent (digit_count exponent : Z) :
  Int32.in_range digit_count ->
  digit_count > Z.abs exponent ->
  exponent <= 0 ->
  Infer digit_count exponent = Ret (digit_count, - exponent)
  /\ 0 <= - exponent.
Proof.
  intros Hd He Hneg. split; [ | lia].
  apply Infer_more_digits; [assumption | lia].
Qed.


(** For a digit count >= 0 and an exponent other than the degenerate pair
    (0, 0), on which the int32 arithmetic is defined, the precision returned
    is at least 1, and the scale is not negative unless the exponent is
    positive and below the digit count. *)
Lemma Infer_contract (digit_count exponent : Z) :
  0 <= digit_count ->
  Int32.in_range digit_count ->
  Int32.in_range exponent ->
  ~ (digit_count = 0 /\ exponent = 0) ->
  exponent <> Int32.min ->
  (digit_count <= exponent -> digit_count + exponent <= Int32.max) ->
  exists precision scale,
    Infer digit_count exponent = Ret (precision, scale)
    /\ 1 <= precision
    /\ (~ 0 < exponent < digit_count -> 0 <= scale).
Proof.
  intros Hd0 Hd He Hnz Hmin Hsum.
  unfold Int32.in_range in He.
  destruct (Z.lt_trichotomy exponent 0) as [Hneg | [Hzero | Hpos]].
  - destruct (Z.le_gt_cases digit_count (- exponent)) as [Hle | Hgt].
    + exists (- exponent), (- exponent).
      rewrite Infer_leading_zeros by lia. repeat split; lia.
    + exists digit_count, (- exponent).
      rewrite Infer_more_digits by (assumption || lia). repeat split; lia.
  - exists digit_count, (- exponent).
    rewrite Infer_more_digits by (assumption || lia). repeat split; lia.
  - destruct (Z.le_gt_cases digit_count exponent) as [Hle | Hgt].
    + exists (digit_count + exponent), 0.
      rewrite Infer_trailing_zeros by (assumption || lia). repeat split; lia.
    + exists digit_count, (- exponent).
      rewrite Infer_more_digits by (assumption || lia). repeat split; lia.
Qed.

(** C2: the code at a failing input. Nine digits with exponent 2 (the value
    written 3.94042983E+10) are not the degenerate pair and nothing
    overflows, yet the pair returned has scale -2, so it does not satisfy
    precision >= 1 and scale >= 0. *)
Theorem Infer_contract_negative_scale :
  0 <= 9 /\ ~ (9 = 0 /\ 2 = 0)
  /\ Infer 9 2 = Ret (9, -2)
  /\ ~ (exists precision scale,
         Infer 9 2 = Ret (precision, scale) /\ 1 <= precision /\ 0 <= scale).
Proof.
  split; [lia | ]. split; [lia | ]. split; [reflexivity | ].
  intros (precision & scale & Heq & _ & Hs).
  vm_compute in Heq. inversion Heq; subst. lia.
Qed.

(** ** Update *)

(** The call that does not correct the precision. *)
Lemma Update_plain (m : DecimalMetadata) (sp ss : Z) :
  (ss =? 0) && (precision_ m <? sp) = false ->
  Update m sp ss
  = Ret (OK, mkDecimalMetadata (Z.max (precision_ m) sp) (Z.max (scale_ m) ss)).
Proof. intros Hcond. unfold Update. cbn [precision_ scale_]. now rewrite Hcond. Qed.

(** The call that corrects the precision: an integer suggestion above the
    running precision. *)
Lemma Update_corrected (m : DecimalMetadata) (sp : Z) :
  precision_ m < sp ->
  Update m sp 0
  = (sum <- add32 sp (Z.max (scale_ m) 0) ;;
     Ret (OK, mkDecimalMetadata sum (Z.max (scale_ m) 0))).
Proof.
  intros Hlt. unfold Update. cbn [precision_ scale_].
  replace (precision_ m <? sp) with true by (symmetry; apply Z.ltb_lt; exact Hlt).
  rewrite Z.max_r by lia. cbn [Z.eqb andb].
  destruct (add32 sp (Z.max (scale_ m) 0)); reflexivity.
Qed.

(** The two cases of a call. *)
Lemma Update_cases (m : DecimalMetadata) (sp ss : Z) :
  (ss = 0 /\ precision_ m < sp)
  \/ (ss =? 0) && (precision_ m <? sp) = false.
Proof.
  destruct (ss =? 0) eqn:Hs; [ | right; reflexivity].
  destruct (precision_ m <? sp) eqn:Hp; [ | right; reflexivity].
  left. split; [apply Z.eqb_eq | apply Z.ltb_lt]; assumption.
Qed.

(** A call returns as soon as the corrected precision fits an [int32_t]. *)
Lemma Update_returns (m : DecimalMetadata) (sp ss : Z) :
  Int32.in_range sp ->
  sp + Z.max (scale_ m) 0 <= Int32.max ->
  exists m', Update m sp ss = Ret (OK, m').
Proof.
  intros Hsp Hsum. destruct (Update_cases m sp ss) as [[Hs Hp] | Hcond].
  - subst ss. rewrite Update_corrected by exact Hp. unfold add32. in32.
    eexists. reflexivity.
  - rewrite Update_plain by exact Hcond. eexists. reflexivity.
Qed.

(** What a returning call leaves in the object. *)
Lemma Update_Ret (m : DecimalMetadata) (sp ss : Z) (st : Status) (m' : DecimalMetadata) :
  Update m sp ss = Ret (st, m') ->
  st = OK
  /\ scale_ m' = Z.max (scale_ m) ss
  /\ ((ss = 0 /\ precision_ m < sp /\ precision_ m' = sp + Z.max (scale_ m) 0)
      \/ ((ss =? 0) && (precision_ m <? sp) = false
          /\ precision_ m' = Z.max (precision_ m) sp)).
Proof.
  intros Hret. destruct (Update_cases m sp ss) as [[Hs Hp] | Hcond].
  - subst ss. rewrite Update_corrected in Hret by exact Hp.
    apply bind_Ret in Hret. destruct Hret as (sum & Hsum & Heq).
    apply checked_Ret in Hsum. destruct Hsum as [Hsum _].
    inversion Heq; subst. cbn [precision_ scale_].
    split; [reflexivity | ]. split; [reflexivity | ]. left. auto.
  - rewrite Update_plain in Hret by exact Hcond.
    inversion Hret; subst. cbn [precision_ scale_].
    split; [reflexivity | ]. split; [reflexivity | ]. right. auto.
Qed.

Lemma Update_step_le (m : DecimalMetadata) (sp ss : Z) (st : Status) (m' : DecimalMetadata) :
  Update m sp ss = Ret (st, m') -> meta_le m m'.
Proof.
  intros Hret. apply Update_Ret in Hret.
  destruct Hret as (_ & Hscale & [(_ & Hlt & Hp) | (_ & Hp)]);
    unfold meta_le; rewrite Hscale, Hp; lia.
Qed.

(** C3, as the code has it: for every metadata state and every suggested
    pair for which the precision of the design document's rule is at most
    INT32_MAX, Update returns Status OK with exactly the state of that rule:
    the larger of the two precisions, the larger of the two scales, and the
    precision raised by the new scale when the suggested scale is 0 and the
    suggested precision is above the running one. Where the rule's precision
    is past INT32_MAX the addition to the precision is a signed overflow and
    the call has no result. *)
Theorem Update_exact (meta : DecimalMetadata) (suggested_precision suggested_scale : Z) :
  Int32.in_range (precision_ meta) ->
  Int32.in_range suggested_precision ->
  let expected := Update_spec meta suggested_precision suggested_scale in
  (precision_ expected <= Int32.max ->
   Update meta suggested_precision suggested_scale = Ret (OK, expected))
  /\ (Int32.max < precision_ expected ->
      Update meta suggested_precision suggested_scale = Undefined).
Proof.
  intros Hp Hsp expected. subst expected. unfold Update_spec.
  destruct (Update_cases meta suggested_precision suggested_scale)
    as [[Hs Hlt] | Hcond].
  - subst suggested_scale. rewrite Update_corrected by exact Hlt.
    replace (suggested_precision >? precision_ meta) with true
      by (symmetry; apply Z.gtb_lt; exact Hlt).
    cbn [Z.eqb andb precision_]. rewrite (Z.max_r (precision_ meta)) by lia.
    unfold add32. split; intros Hsum.
    + now in32.
    + rewrite checked_out_of_range; [reflexivity | ].
      unfold Int32.in_range. lia.
  - rewrite Update_plain by exact Hcond.
    rewrite Z.gtb_ltb, Hcond. cbn [precision_].
    split; intros Hsum; [reflexivity | ].
    unfold Int32.in_range in *. lia.
Qed.

Lemma Update_exact_witness :
  Update (mkDecimalMetadata 3 2) 5 0 = Ret (OK, mkDecimalMetadata 7 2).
Proof.
  assert (H3 : Int32.in_range 3) by (unfold Int32.in_range, Int32.min, Int32.max; lia).
  assert (H5 : Int32.in_range 5) by (unfold Int32.in_range, Int32.min, Int32.max; lia).
  apply (proj1 (Update_exact (mkDecimalMetadata 3 2) 5 0 H3 H5)).
  vm_compute. intros H. discriminate H.
Defined.

(** C3 as stated fails: after 0.1, which leaves precision 1 and scale 1, the
    value 1E+2147483646 suggests precision 2147483647 with scale 0; the rule
    asks for precision 2147483648, which no int32 holds, and the call does
    not produce the rule's state. *)
Lemma Update_exact_overflow :
  Update_object DecimalMetadata_default (decimal_object [1] (-1) "0.1")
  = Ret (OK, mkDecimalMetadata 1 1)
  /\ InferDecimalPrecisionAndScale
       (decimal_object [1] 2147483646 "1E+2147483646") 0 0
     = Ret (OK, 2147483647, 0)
  /\ Update_spec (mkDecimalMetadata 1 1) 2147483647 0
     = mkDecimalMetadata 2147483648 1
  /\ Update (mkDecimalMetadata 1 1) 2147483647 0 = Undefined
  /\ Update (mkDecimalMetadata 1 1) 2147483647 0
     <> Ret (OK, Update_spec (mkDecimalMetadata 1 1) 2147483647 0).
Proof.
  split; [reflexivity | ]. split; [reflexivity | ]. split; [reflexivity | ].
  split; [reflexivity | ]. vm_compute. intros H. discriminate H.
Qed.

Lemma UpdateTrace_cons (m : DecimalMetadata) (p s : Z) (rest : list (Z * Z))
    (states : list DecimalMetadata) :
  UpdateTrace m ((p, s) :: rest) = Ret states ->
  exists st m' states',
    Update m p s = Ret (st, m')
    /\ UpdateTrace m' rest = Ret states'
    /\ states = m' :: states'.
Proof.
  cbn [UpdateTrace]. intros Hret.
  apply bind_Ret in Hret. destruct Hret as ([st m'] & Hstep & Hret).
  apply bind_Ret in Hret. destruct Hret as (states' & Hrest & Hret).
  inversion Hret; subst. exists st, m', states'. auto.
Qed.

Lemma UpdateTrace_sorted (suggestions : list (Z * Z)) :
  forall (m : DecimalMetadata) (states : list DecimalMetadata),
    UpdateTrace m suggestions = Ret states -> Sorted meta_le (m :: states).
Proof.
  induction suggestions as [ | [p s] rest IH]; intros m states Hret.
  - cbn in Hret. inversion Hret; subst. repeat constructor.
  - apply UpdateTrace_cons in Hret.
    destruct Hret as (st & m' & states' & Hstep & Hrest & ->).
    constructor.
    + apply IH. exact Hrest.
    + constructor. eapply Update_step_le. exact Hstep.
Qed.

(** C8, as the code has it: across every single step of every sequence of
    Update calls in which no call overflows, the stored precision and the
    stored scale do not decrease. The first part is one call from any state,
    the second a whole pass with the object kept after every call, the third
    that a call does not overflow, and returns, whenever the suggested
    precision plus the larger of the running scale and 0 is at most
    INT32_MAX. *)
Theorem Update_monotone :
  (forall (m : DecimalMetadata) (sp ss : Z) (st : Status) (m' : DecimalMetadata),
      Update m sp ss = Ret (st, m') ->
      precision_ m <= precision_ m' /\ scale_ m <= scale_ m')
  /\ (forall (m : DecimalMetadata) (suggestions : list (Z * Z))
        (states : list DecimalMetadata),
        UpdateTrace m suggestions = Ret states ->
        Sorted meta_le (m :: states))
  /\ (forall (m : DecimalMetadata) (sp ss : Z),
        Int32.in_range sp ->
        sp + Z.max (scale_ m) 0 <= Int32.max ->
        exists m', Update m sp ss = Ret (OK, m')).
Proof.
  split; [ | split].
  - intros m sp ss st m' Hret. exact (Update_step_le m sp ss st m' Hret).
  - intros m suggestions states. apply UpdateTrace_sorted.
  - intros m sp ss. apply Update_returns.
Qed.

Lemma Update_monotone_witness :
  Sorted meta_le
    [DecimalMetadata_default; mkDecimalMetadata 3 2; mkDecimalMetadata 7 2;
     mkDecimalMetadata 7 4].
Proof.
  apply (proj1 (proj2 Update_monotone) DecimalMetadata_default
           [(3, 2); (5, 0); (6, 4)]).
  reflexivity.
Defined.

(** C8 as stated fails: after 0.01, which leaves precision 2 and scale 2,
    the value 1E+2147483645 suggests precision 2147483646 with scale 0; the
    corrected precision 2147483648 overflows, and the call stores no state
    that is at least the one before it. *)
Lemma Update_monotone_overflow :
  UpdateTrace DecimalMetadata_default [(2, 2)] = Ret [mkDecimalMetadata 2 2]
  /\ Infer 1 (-2) = Ret (2, 2)
  /\ Infer 1 2147483645 = Ret (2147483646, 0)
  /\ UpdateTrace DecimalMetadata_default [(2, 2); (2147483646, 0)] = Undefined
  /\ ~ (exists (st : Status) (m' : DecimalMetadata),
          Update (mkDecimalMetadata 2 2) 2147483646 0 = Ret (st, m')
          /\ precision_ (mkDecimalMetadata 2 2) <= precision_ m'
          /\ scale_ (mkDecimalMetadata 2 2) <= scale_ m').
Proof.
  split; [reflexivity | ]. split; [reflexivity | ]. split; [reflexivity | ].
  split; [reflexivity | ].
  intros (st & m' & Hret & _). vm_compute in Hret. discriminate Hret.
Qed.

(** C10: Update is idempotent. For every state and every suggested pair
    (p, s), two calls in a row are one call: the second changes neither
    precision nor scale. After the first call the running precision is at
    least p, so the correction of the precision does not apply again. *)
Theorem Update_idempotent (m : DecimalMetadata) (p s : Z) :
  ('(_, m') <- Update m p s ;; Update m' p s) = Update m p s
  /\ (forall (st : Status) (m' : DecimalMetadata),
         Update m p s = Ret (st, m') ->
         p <= precision_ m'
         /\ (s =? 0) && (precision_ m' <? p) = false
         /\ Update m' p s = Ret (OK, m')).
Proof.
  assert (Hsecond : forall st m',
             Update m p s = Ret (st, m') ->
             p <= precision_ m'
             /\ (s =? 0) && (precision_ m' <? p) = false
             /\ Update m' p s = Ret (OK, m')).
  { intros st m' Hret. apply Update_Ret in Hret.
    destruct Hret as (_ & Hscale & Hprec).
    assert (Hge : p <= precision_ m')
      by (destruct Hprec as [(_ & _ & Hp) | (_ & Hp)]; rewrite Hp; lia).
    assert (Hcond : (s =? 0) && (precision_ m' <? p) = false).
    { replace (precision_ m' <? p) with false
        by (symmetry; apply Z.ltb_ge; exact Hge).
      apply andb_false_r. }
    split; [exact Hge | ]. split; [exact Hcond | ].
    rewrite Update_plain by exact Hcond.
    destruct m' as [p' s']. cbn [precision_ scale_] in *.
    rewrite Z.max_l by exact Hge. rewrite Hscale.
    rewrite Z.max_l by lia. reflexivity. }
  split; [ | exact Hsecond].
  destruct (Update m p s) as [[st m'] | ] eqn:Hfirst; cbn [bind]; [ | reflexivity].
  destruct (Hsecond st m' eq_refl) as (_ & _ & Hagain).
  rewrite Hagain. apply Update_Ret in Hfirst. destruct Hfirst as [-> _].
  reflexivity.
Qed.

Lemma Update_idempotent_witness :
  Update (mkDecimalMetadata 7 2) 5 0 = Ret (OK, mkDecimalMetadata 7 2)
  /\ 5 <= 7.
Proof.
  destruct (proj2 (Update_idempotent (mkDecimalMetadata 3 2) 5 0)
              OK (mkDecimalMetadata 7 2) eq_refl) as (Hge & _ & Hagain).
  split; [exact Hagain | exact Hge].
Defined.

(** ** A pass over a column *)

Lemma running_max_perm (l1 l2 : list Z) :
  Permutation l1 l2 -> forall start, running_max start l1 = running_max start l2.
Proof.
  unfold running_max. induction 1 as [ | x l1 l2 _ IH | x y l | l1 l2 l3 _ IH1 _ IH2];
    intros start; cbn [fold_left].
  - reflexivity.
  - apply IH.
  - f_equal. lia.
  - now rewrite IH1.
Qed.

Lemma UpdateAll_cons (m : DecimalMetadata) (p s : Z) (rest : list (Z * Z))
    (final : DecimalMetadata) :
  UpdateAll m ((p, s) :: rest) = Ret final ->
  exists st m', Update m p s = Ret (st, m') /\ UpdateAll m' rest = Ret final.
Proof.
  cbn [UpdateAll]. intros Hret.
  apply bind_Ret in Hret. destruct Hret as ([st m'] & Hstep & Hret).
  exists st, m'. auto.
Qed.

(** The scale at the end of a pass is the largest scale suggested. *)
Lemma UpdateAll_scale (suggestions : list (Z * Z)) :
  forall (m final : DecimalMetadata),
    UpdateAll m suggestions = Ret final ->
    scale_ final = running_max (scale_ m) (map snd suggestions).
Proof.
  induction suggestions as [ | [p s] rest IH]; intros m final Hret.
  - cbn in Hret. inversion Hret; subst. reflexivity.
  - apply UpdateAll_cons in Hret. destruct Hret as (st & m' & Hstep & Hrest).
    apply IH in Hrest. apply Update_Ret in Hstep.
    destruct Hstep as (_ & Hscale & _).
    rewrite Hrest, Hscale. reflexivity.
Qed.

(** A pass in which no suggestion has scale 0 never corrects the precision. *)
Lemma UpdateAll_no_integer (suggestions : list (Z * Z)) :
  forall (m : DecimalMetadata),
    Forall (fun u => snd u <> 0) suggestions ->
    UpdateAll m suggestions
    = Ret (mkDecimalMetadata
             (running_max (precision_ m) (map fst suggestions))
             (running_max (scale_ m) (map snd suggestions))).
Proof.
  induction suggestions as [ | [p s] rest IH]; intros m Hall.
  - destruct m. reflexivity.
  - inversion Hall as [ | u l Hs Hrest]; subst. cbn [snd] in Hs.
    cbn [UpdateAll]. rewrite Update_plain.
    + cbn [bind]. rewrite IH by exact Hrest. reflexivity.
    + apply Z.eqb_neq in Hs. now rewrite Hs.
Qed.

(** A pass in which no suggestion has a positive scale corrects the
    precision by a scale of 0 only. *)
Lemma UpdateAll_no_fraction (suggestions : list (Z * Z)) :
  forall (m : DecimalMetadata),
    Forall (fun u => Int32.in_range (fst u) /\ snd u <= 0) suggestions ->
    Int32.in_range (precision_ m) ->
    scale_ m <= 0 ->
    UpdateAll m suggestions
    = Ret (mkDecimalMetadata
             (running_max (precision_ m) (map fst suggestions))
             (running_max (scale_ m) (map snd suggestions))).
Proof.
  induction suggestions as [ | [p s] rest IH]; intros m Hall Hp Hs.
  - destruct m. reflexivity.
  - inversion Hall as [ | u l [Hpr Hsc] Hrest]; subst. cbn [fst snd] in Hpr, Hsc.
    assert (Hstep : Update m p s
                    = Ret (OK, mkDecimalMetadata (Z.max (precision_ m) p)
                                                 (Z.max (scale_ m) s))).
    { destruct (Update_cases m p s) as [[Hz Hlt] | Hcond].
      - subst s. rewrite Update_corrected by exact Hlt.
        rewrite (Z.max_r (scale_ m) 0) by exact Hs. unfold add32.
        rewrite Z.add_0_r. in32. rewrite Z.max_r by lia. reflexivity.
      - apply Update_plain. exact Hcond. }
    cbn [UpdateAll]. rewrite Hstep. cbn [bind].
    rewrite IH; cbn [precision_ scale_].
    + reflexivity.
    + exact Hrest.
    + unfold Int32.in_range in *. lia.
    + lia.
Qed.

(** C4, as the code has it: for suggestions folded into a fresh
    DecimalMetadata, the final scale does not depend on the order of the
    calls; the final pair does not depend on it when no suggestion has scale
    0 or when no suggestion has a positive scale, and the pass then returns.
    A pass that mixes suggestions of scale 0 with suggestions of positive
    scale is left out: its precision depends on the order. *)
Theorem UpdateAll_order (l1 l2 : list (Z * Z)) :
  Permutation l1 l2 ->
  Forall (fun u => Int32.in_range (fst u) /\ Int32.in_range (snd u)) l1 ->
  (forall m1 m2 : DecimalMetadata,
      UpdateAll DecimalMetadata_default l1 = Ret m1 ->
      UpdateAll DecimalMetadata_default l2 = Ret m2 ->
      scale_ m1 = scale_ m2)
  /\ (Forall (fun u => snd u <> 0) l1 \/ Forall (fun u => snd u <= 0) l1 ->
      exists m : DecimalMetadata,
        UpdateAll DecimalMetadata_default l1 = Ret m
        /\ UpdateAll DecimalMetadata_default l2 = Ret m).
Proof.
  intros Hperm Hrange.
  assert (Hfst : Permutation (map fst l1) (map fst l2))
    by (apply Permutation_map; exact Hperm).
  assert (Hsnd : Permutation (map snd l1) (map snd l2))
    by (apply Permutation_map; exact Hperm).
  split.
  - intros m1 m2 H1 H2.
    rewrite (UpdateAll_scale l1 _ m1 H1), (UpdateAll_scale l2 _ m2 H2).
    apply running_max_perm. exact Hsnd.
  - intros [Hnz | Hneg].
    + eexists. split; [apply UpdateAll_no_integer; exact Hnz | ].
      rewrite UpdateAll_no_integer
        by (eapply Permutation_Forall; [exact Hperm | exact Hnz]).
      rewrite (running_max_perm _ _ Hfst), (running_max_perm _ _ Hsnd).
      reflexivity.
    + assert (Hboth : Forall (fun u => Int32.in_range (fst u) /\ snd u <= 0) l1).
      { rewrite Forall_forall in *. intros u Hin.
        split; [apply (Hrange u Hin) | apply (Hneg u Hin)]. }
      assert (Hp0 : Int32.in_range (precision_ DecimalMetadata_default))
        by (vm_compute; split; intros H; discriminate H).
      assert (Hs0 : scale_ DecimalMetadata_default <= 0)
        by (vm_compute; intros H; discriminate H).
      eexists. split; [apply UpdateAll_no_fraction; assumption | ].
      rewrite UpdateAll_no_fraction;
        [ | eapply Permutation_Forall; [exact Hperm | exact Hboth] | exact Hp0 | exact Hs0].
      rewrite (running_max_perm _ _ Hfst), (running_max_perm _ _ Hsnd).
      reflexivity.
Qed.

Lemma UpdateAll_order_witness :
  exists m : DecimalMetadata,
    UpdateAll DecimalMetadata_default [(3, 2); (5, 1)] = Ret m
    /\ UpdateAll DecimalMetadata_default [(5, 1); (3, 2)] = Ret m.
Proof.
  assert (Hperm : Permutation [(3, 2); (5, 1)] [(5, 1); (3, 2)])
    by apply perm_swap.
  assert (Hrange : Forall (fun u => Int32.in_range (fst u) /\ Int32.in_range (snd u))
                          [(3, 2); (5, 1)]).
  { repeat constructor; cbn; unfold Int32.min, Int32.max; lia. }
  apply (proj2 (UpdateAll_order _ _ Hperm Hrange)).
  left. repeat constructor; cbn; lia.
Defined.

(** C4 as stated fails: the integer 12345 (precision 5, scale 0) and the
    fraction 1.23 (precision 3, scale 2), folded into a fresh
    DecimalMetadata, end in (5, 2) in this order and in (7, 2) in the
    other. *)
Lemma UpdateAll_order_matters :
  Permutation [(5, 0); (3, 2)] [(3, 2); (5, 0)]
  /\ UpdateAll DecimalMetadata_default [(5, 0); (3, 2)]
     = Ret (mkDecimalMetadata 5 2)
  /\ UpdateAll DecimalMetadata_default [(3, 2); (5, 0)]
     = Ret (mkDecimalMetadata 7 2)
  /\ UpdateAll DecimalMetadata_default [(5, 0); (3, 2)]
     <> UpdateAll DecimalMetadata_default [(3, 2); (5, 0)]
  /\ Infer 5 0 = Ret (5, 0)
  /\ Infer 3 (-2) = Ret (3, 2).
Proof.
  split; [apply perm_swap | ]. split; [reflexivity | ]. split; [reflexivity | ].
  split; [ | split; reflexivity].
  vm_compute. intros H. discriminate H.
Qed.

(** ** Not-a-number values *)

(** C7: for every metadata state and every value that is a NaN, Update on
    the value returns Status OK and leaves precision and scale as they
    were. *)
Theorem Update_object_nan (meta : DecimalMetadata) (v : PyObject) :
  PyDecimal_ISNAN v = true ->
  Update_object meta v = Ret (OK, meta).
Proof.
  intros Hnan. unfold Update_object. rewrite Hnan.
  now rewrite orb_true_r.
Qed.

Lemma Update_object_nan_witness :
  Update_object (mkDecimalMetadata 3 1) nan_object
  = Ret (OK, mkDecimalMetadata 3 1).
Proof. apply (Update_object_nan (mkDecimalMetadata 3 1) nan_object). reflexivity. Defined.

(** ** Conversion *)

Section Convert.
Context {ops : Decimal128Ops}.
Variables (python_decimal : PyObject) (text : string).
Variables (arrow_type : DecimalType) (out : Decimal128).
Hypothesis Hstr : py_str python_decimal = Some text.

(** The literal does not parse: the parser's status is the result. *)
Lemma Convert_malformed (status : Status) (out' : Decimal128) (p s : Z) :
  FromString text out = (status, out', p, s) ->
  ok status = false ->
  DecimalFromPythonDecimal python_decimal arrow_type out = (status, out').
Proof.
  intros Hparse Hfail. unfold DecimalFromPythonDecimal, PythonDecimalToString,
    PyObject_StdStringStr. rewrite Hstr. cbn [ok negb].
  rewrite Hparse, Hfail. reflexivity.
Qed.

Variables (value : Decimal128) (inferred_precision inferred_scale : Z).
Hypothesis Hparse : FromString text out = (OK, value, inferred_precision, inferred_scale).

(** The inferred precision is above the target's. *)
Lemma Convert_overflow :
  type_precision arrow_type < inferred_precision ->
  DecimalFromPythonDecimal python_decimal arrow_type out
  = (Invalid (precision_message inferred_precision (type_precision arrow_type)),
     value).
Proof.
  intros Hgt. unfold DecimalFromPythonDecimal, PythonDecimalToString,
    PyObject_StdStringStr. rewrite Hstr. cbn [ok negb]. rewrite Hparse.
  cbn [ok negb].
  replace (inferred_precision >? type_precision arrow_type) with true
    by (symmetry; apply Z.gtb_lt; exact Hgt).
  reflexivity.
Qed.

(** The inferred precision fits: what is left is the rescale. *)
Lemma Convert_fits :
  inferred_precision <= type_precision arrow_type ->
  DecimalFromPythonDecimal python_decimal arrow_type out
  = if type_scale arrow_type =? inferred_scale then (OK, value)
    else let '(status, out') := Rescale value inferred_scale (type_scale arrow_type) in
         if ok status then (OK, out') else (status, out').
Proof.
  intros Hle. unfold DecimalFromPythonDecimal, PythonDecimalToString,
    PyObject_StdStringStr. rewrite Hstr. cbn [ok negb]. rewrite Hparse.
  cbn [ok negb].
  replace (inferred_precision >? type_precision arrow_type) with false
    by (symmetry; rewrite Z.gtb_ltb; apply Z.ltb_ge; exact Hle).
  destruct (type_scale arrow_type =? inferred_scale); cbn [negb]; [reflexivity | ].
  destruct (Rescale value inferred_scale (type_scale arrow_type)) as [status out'].
  destruct (ok status); reflexivity.
Qed.
End Convert.

Lemma ok_true (status : Status) : ok status = true -> status = OK.
Proof. destruct status; simpl; intros H; (reflexivity || discriminate H). Qed.

(** C5: for every target type, the conversion fails at the precision check
    exactly when the precision inferred by the parser is strictly above the
    target's. The failure is the status built with Status::Invalid (the
    PrecisionOverflow failure of the design document) and its message holds
    both precisions, the inferred one first. When the inferred precision is
    at most the target's, the result is OK or the failure of the rescale
    primitive; when the literal does not parse, it is the parser's failure. *)
Theorem Convert_precision_overflow (ops : Decimal128Ops)
    (python_decimal : PyObject) (text : string)
    (target : DecimalType) (out : Decimal128) :
  py_str python_decimal = Some text ->
  (forall (value : Decimal128) (inferred_precision inferred_scale : Z),
      FromString text out = (OK, value, inferred_precision, inferred_scale) ->
      (inferred_precision > type_precision target ->
       fst (DecimalFromPythonDecimal python_decimal target out)
       = Invalid (precision_message inferred_precision (type_precision target)))
      /\ (~ inferred_precision > type_precision target ->
          fst (DecimalFromPythonDecimal python_decimal target out) = OK
          \/ (type_scale target <> inferred_scale
              /\ fst (DecimalFromPythonDecimal python_decimal target out)
                 = fst (Rescale value inferred_scale (type_scale target)))))
  /\ (forall (status : Status) (out' : Decimal128) (p s : Z),
         FromString text out = (status, out', p, s) ->
         ok status = false ->
         fst (DecimalFromPythonDecimal python_decimal target out) = status)
  /\ (forall inferred_precision precision : Z,
         exists before between : string,
           precision_message inferred_precision precision
           = (before ++ show_int32 inferred_precision
              ++ between ++ show_int32 precision)%string).
Proof.
  intros Hstr. split; [ | split].
  - intros value ip isc Hparse. split.
    + intros Hgt.
      rewrite (Convert_overflow python_decimal text target out Hstr value ip isc Hparse)
        by lia.
      reflexivity.
    + intros Hle.
      rewrite (Convert_fits python_decimal text target out Hstr value ip isc Hparse)
        by lia.
      destruct (type_scale target =? isc) eqn:Hscale; [left; reflexivity | ].
      destruct (Rescale value isc (type_scale target)) as [status out'] eqn:Hres.
      destruct (ok status) eqn:Hok; [left; reflexivity | ].
      right. split; [apply Z.eqb_neq; exact Hscale | reflexivity].
  - intros status out' p s Hparse Hfail.
    rewrite (Convert_malformed python_decimal text target out Hstr status out' p s Hparse Hfail).
    reflexivity.
  - intros ip p. unfold precision_message.
    exists "Decimal type with precision "%string,
      " does not fit into precision inferred from first array element: "%string.
    reflexivity.
Qed.

Lemma Convert_precision_overflow_witness :
  fst (DecimalFromPythonDecimal
         (decimal_object [1; 2; 3; 4; 5] 0 "12345") (mkDecimalType 4 0) 0)
  = Invalid "Decimal type with precision 5 does not fit into precision inferred from first array element: 4".
Proof.
  apply (proj1 (proj1 (Convert_precision_overflow SpecDecimal128
                         (decimal_object [1; 2; 3; 4; 5] 0 "12345") "12345"
                         (mkDecimalType 4 0) 0 eq_refl)
                  12345 5 0 eq_refl)).
  reflexivity.
Defined.

(** C6: once the literal is parsed and its precision fits, the value is
    rescaled from the inferred scale to the target's exactly when the two
    differ, and a failure of the rescale is the failure of the conversion;
    with equal scales the parsed value is returned as it is. With the parser
    and the rescale primitive of the design document, "1.5" converted to
    precision 5 and scale 3 is the unscaled value 1500. *)
Theorem Convert_rescale :
  (forall (ops : Decimal128Ops) (python_decimal : PyObject) (text : string)
          (target : DecimalType) (out value : Decimal128)
          (inferred_precision inferred_scale : Z),
      py_str python_decimal = Some text ->
      FromString text out = (OK, value, inferred_precision, inferred_scale) ->
      inferred_precision <= type_precision target ->
      (inferred_scale = type_scale target ->
       DecimalFromPythonDecimal python_decimal target out = (OK, value))
      /\ (inferred_scale <> type_scale target ->
          DecimalFromPythonDecimal python_decimal target out
          = Rescale value inferred_scale (type_scale target)))
  /\ (forall out : Decimal128,
         DecimalFromPythonDecimal (ops := SpecDecimal128)
           (decimal_object [1; 5] (-1) "1.5") (mkDecimalType 5 3) out
         = (OK, 1500)).
Proof.
  split.
  - intros ops python_decimal text target out value ip isc Hstr Hparse Hle.
    rewrite (Convert_fits python_decimal text target out Hstr value ip isc Hparse Hle).
    split; intros Hscale.
    + subst isc. now rewrite Z.eqb_refl.
    + replace (type_scale target =? isc) with false
        by (symmetry; apply Z.eqb_neq; congruence).
      destruct (Rescale value isc (type_scale target)) as [status out'].
      destruct (ok status) eqn:Hok; [ | reflexivity].
      apply ok_true in Hok. now subst status.
  - intros out. reflexivity.
Qed.

Lemma Convert_rescale_witness :
  parse "1.5" = Some (15, 2, 1)
  /\ rescale 15 1 3 = Some 1500
  /\ DecimalFromPythonDecimal (ops := SpecDecimal128)
       (decimal_object [1; 5] (-1) "1.5") (mkDecimalType 5 3) 0
     = (OK, 1500).
Proof.
  split; [reflexivity | ]. split; [reflexivity | ].
  assert (Hle : 2 <= type_precision (mkDecimalType 5 3)) by (cbn; lia).
  assert (Hne : 1 <> type_scale (mkDecimalType 5 3)) by (cbn; lia).
  exact (proj2 (proj1 Convert_rescale SpecDecimal128
                  (decimal_object [1; 5] (-1) "1.5") "1.5"%string
                  (mkDecimalType 5 3) 0 15 2 1 eq_refl eq_refl Hle) Hne).
Defined.

(** * Further properties of the code *)

(** ** Infer, on both branches *)

Lemma checked_cases (z : Z) :
  (Int32.in_range z /\ checked z = Ret z)
  \/ (~ Int32.in_range z /\ checked z = Undefined).
Proof.
  destruct (Int32.in_rangeb z) eqn:Hb.
  - left. assert (Hr : Int32.in_range z).
    { unfold Int32.in_rangeb in Hb. apply andb_true_iff in Hb.
      destruct Hb as [Hlo Hhi]. split; apply Z.leb_le; assumption. }
    split; [exact Hr | apply checked_in_range; exact Hr].
  - right. assert (Hr : ~ Int32.in_range z).
    { intros Hr. apply in_rangeb_true in Hr. congruence. }
    split; [exact Hr | apply checked_out_of_range; exact Hr].
Qed.

(** Decides the next int32 operation of the goal, keeping its range. *)
Ltac step32 :=
  match goal with
  | |- context [checked ?z] =>
      let Hr := fresh "Hr" in
      destruct (checked_cases z) as [[Hr ->] | [Hr ->]]; cbn [bind]
  end.

(** What a returning [Infer] has computed, branch by branch. *)
Lemma Infer_Ret (d e p s : Z) :
  Infer d e = Ret (p, s) ->
  Int32.in_range p /\ Int32.in_range s /\ Int32.min < e
  /\ ((Z.abs e < d /\ p = d /\ s = - e)
      \/ (e < 0 /\ d <= - e /\ p = - e /\ s = - e)
      \/ (0 <= e /\ d <= e /\ p = d + e /\ s = 0)).
Proof.
  unfold Infer. unfold32. step32; [ | discriminate].
  destruct (d <=? Z.abs e) eqn:Hcmp.
  - apply Z.leb_le in Hcmp. destruct (e <? 0) eqn:Hneg.
    + apply Z.ltb_lt in Hneg.
      step32; [ | discriminate]. step32; [ | discriminate].
      rewrite Z.mul_1_l. step32; [ | discriminate]. step32; [ | discriminate].
      intros H. inversion H; subst. unfold Int32.in_range, Int32.min, Int32.max in *.
      repeat split; lia.
    + apply Z.ltb_ge in Hneg. cbn [bind].
      step32; [ | discriminate]. rewrite Z.mul_0_l.
      step32; [ | discriminate]. step32; [ | discriminate].
      intros H. inversion H; subst. unfold Int32.in_range, Int32.min, Int32.max in *.
      repeat split; lia.
  - apply Z.leb_gt in Hcmp. step32; [ | discriminate].
    step32; [ | discriminate].
    intros H. inversion H; subst. unfold Int32.in_range, Int32.min, Int32.max in *.
    repeat split; lia.
Qed.

(** X1: The pair returned loses nothing: for [digit_count] stored digits of
    value [n] and the exponent [exponent], the decimal [n * 10^exponent] is
    the integer [n * 10^(exponent + scale)] at the scale returned, and that
    integer has at most [precision] digits. *)
Theorem Infer_lossless (digit_count exponent precision scale n : Z) :
  Infer digit_count exponent = Ret (precision, scale) ->
  0 <= digit_count ->
  0 <= n < 10 ^ digit_count ->
  0 <= exponent + scale
  /\ digit_count + (exponent + scale) <= precision
  /\ n * 10 ^ (exponent + scale) < 10 ^ precision.
Proof.
  intros Hret Hd Hn. apply Infer_Ret in Hret.
  destruct Hret as (_ & _ & _ & Hcases).
  assert (Hshift : 0 <= exponent + scale) by lia.
  assert (Hlen : digit_count + (exponent + scale) <= precision) by lia.
  split; [exact Hshift | ]. split; [exact Hlen | ].
  apply Z.lt_le_trans with (10 ^ digit_count * 10 ^ (exponent + scale)).
  - apply Z.mul_lt_mono_pos_r; [apply Z.pow_pos_nonneg; lia | lia].
  - rewrite <- Z.pow_add_r by lia. apply Z.pow_le_mono_r; lia.
Qed.

Lemma Infer_lossless_witness :
  Infer 3 (-5) = Ret (5, 5) /\ 123 * 10 ^ (-5 + 5) < 10 ^ 5.
Proof.
  assert (Hret : Infer 3 (-5) = Ret (5, 5)) by reflexivity.
  assert (Hd : 0 <= 3) by lia.
  assert (Hn : 0 <= 123 < 10 ^ 3) by (cbn; lia).
  split; [exact Hret | ].
  exact (proj2 (proj2 (Infer_lossless 3 (-5) 5 5 123 Hret Hd Hn))).
Defined.

(** X2: The magnitude of the scale never exceeds the precision, and both are
    int32 values. *)
Theorem Infer_scale_within_precision (digit_count exponent precision scale : Z) :
  Infer digit_count exponent = Ret (precision, scale) ->
  0 <= digit_count ->
  Z.abs scale <= precision
  /\ Int32.in_range precision /\ Int32.in_range scale.
Proof.
  intros Hret Hd. apply Infer_Ret in Hret.
  destruct Hret as (Hp & Hs & _ & Hcases).
  split; [lia | split; assumption].
Qed.

Lemma Infer_scale_within_precision_witness :
  Infer 9 2 = Ret (9, -2) /\ Z.abs (-2) <= 9.
Proof.
  assert (Hret : Infer 9 2 = Ret (9, -2)) by reflexivity.
  assert (Hd : 0 <= 9) by lia.
  split; [exact Hret | ].
  exact (proj1 (Infer_scale_within_precision 9 2 9 (-2) Hret Hd)).
Defined.

(** X3: When the digits are no longer than the exponent, zeros make up the
    precision: in front for a negative exponent, where precision and scale
    are both -exponent; behind for a positive one, where the precision is
    digit_count + exponent and the scale 0. For every negative exponent the
    result is (max(digit_count, -exponent), -exponent). *)
Theorem Infer_zero_padding (digit_count exponent : Z) :
  0 <= digit_count ->
  Int32.in_range digit_count ->
  Int32.in_range exponent ->
  (exponent < 0 -> Int32.min < exponent ->
   Infer digit_count exponent = Ret (Z.max digit_count (- exponent), - exponent))
  /\ (0 < exponent -> digit_count <= exponent ->
      digit_count + exponent <= Int32.max ->
      Infer digit_count exponent = Ret (digit_count + exponent, 0)).
Proof.
  intros Hd0 Hd He. split.
  - intros Hneg Hmin.
    destruct (Z.le_gt_cases digit_count (- exponent)) as [Hle | Hgt].
    + rewrite Z.max_r by exact Hle. apply Infer_leading_zeros; assumption.
    + rewrite Z.max_l by lia. apply Infer_more_digits; [assumption | lia].
  - intros Hpos Hle Hsum. apply Infer_trailing_zeros; assumption.
Qed.

Lemma Infer_zero_padding_witness :
  Infer 3 (-5) = Ret (5, 5) /\ Infer 1 4 = Ret (5, 0).
Proof.
  assert (H3 : Int32.in_range 3) by (unfold Int32.in_range, Int32.min, Int32.max; lia).
  assert (H1 : Int32.in_range 1) by (unfold Int32.in_range, Int32.min, Int32.max; lia).
  assert (H5 : Int32.in_range (-5)) by (unfold Int32.in_range, Int32.min, Int32.max; lia).
  assert (H4 : Int32.in_range 4) by (unfold Int32.in_range, Int32.min, Int32.max; lia).
  split.
  - apply (proj1 (Infer_zero_padding 3 (-5) ltac:(lia) H3 H5)).
    + lia.
    + unfold Int32.min. lia.
  - apply (proj2 (Infer_zero_padding 1 4 ltac:(lia) H1 H4)).
    + lia.
    + lia.
    + unfold Int32.max. lia.
Defined.

(** X4: The arithmetic is undefined on exactly two kinds of input: the exponent
    INT32_MIN, which has no absolute value, and trailing zeros that carry
    digit_count + exponent past INT32_MAX. *)
Theorem Infer_undefined_iff (digit_count exponent : Z) :
  0 <= digit_count ->
  Int32.in_range digit_count ->
  Int32.in_range exponent ->
  Infer digit_count exponent = Undefined
  <-> exponent = Int32.min
      \/ (digit_count <= exponent /\ Int32.max < digit_count + exponent).
Proof.
  intros Hd0 Hd He. split.
  - intros Hundef.
    destruct (Z.eq_dec exponent Int32.min) as [Hmin | Hmin]; [left; exact Hmin | ].
    destruct (Z_le_gt_dec digit_count exponent) as [Hle | Hgt].
    + destruct (Z_le_gt_dec (digit_count + exponent) Int32.max) as [Hsum | Hsum];
        [ | right; split; lia].
      exfalso.
      destruct (Z.eq_dec exponent 0) as [Hz | Hz].
      * assert (digit_count = 0) by lia. subst. discriminate Hundef.
      * rewrite Infer_trailing_zeros in Hundef by lia. discriminate Hundef.
    + exfalso. unfold Int32.in_range in He.
      destruct (Z_le_gt_dec digit_count (- exponent)) as [Hle | Hgt'].
      * rewrite Infer_leading_zeros in Hundef by lia. discriminate Hundef.
      * rewrite Infer_more_digits in Hundef by (assumption || lia).
        discriminate Hundef.
  - intros [Hmin | [Hle Hsum]].
    + subst exponent. apply Infer_min_exponent.
    + unfold Int32.in_range in He. apply Infer_precision_overflow; lia.
Qed.

Lemma Infer_undefined_iff_witness :
  Infer 1 2147483647 = Undefined.
Proof.
  assert (H1 : Int32.in_range 1) by (unfold Int32.in_range, Int32.min, Int32.max; lia).
  assert (He : Int32.in_range 2147483647)
    by (unfold Int32.in_range, Int32.min, Int32.max; lia).
  apply (proj2 (Infer_undefined_iff 1 2147483647 ltac:(lia) H1 He)).
  right. unfold Int32.max. lia.
Defined.

(** ** From the Python object to the counts *)

Lemma wrap_in_range (z : Z) : Int32.in_range z -> Int32.wrap z = z.
Proof.
  unfold Int32.in_range, Int32.wrap, Int32.min, Int32.max. intros Hz.
  rewrite Z.mod_small by lia. lia.
Qed.

Lemma wrap_congruent (a b : Z) :
  a mod 4294967296 = b mod 4294967296 -> Int32.wrap a = Int32.wrap b.
Proof.
  intros Hmod. unfold Int32.wrap. f_equal.
  rewrite (Z.add_mod a), (Z.add_mod b) by lia. now rewrite Hmod.
Qed.

Lemma PyLong_AsLong_int (e : Z) :
  -9223372036854775808 <= e <= 9223372036854775807 ->
  PyLong_AsLong (PyInt e) = inr e.
Proof.
  intros [Hlo Hhi]. unfold PyLong_AsLong.
  replace (-9223372036854775808 <=? e) with true by (symmetry; now apply Z.leb_le).
  replace (e <=? 9223372036854775807) with true by (symmetry; now apply Z.leb_le).
  reflexivity.
Qed.

(** X5: A decimal whose digits tuple is shorter than 2^31 entries and whose
    exponent is an int32 value goes through the casts unchanged: the whole
    function is Infer on the number of digits and the exponent, and it
    writes the outputs and returns OK whenever Infer returns. *)
Theorem InferDecimalPrecisionAndScale_counts
    (obj : PyObject) (ds : list Z) (e precision scale : Z) :
  py_as_tuple obj = Some (mkDecimalTuple ds (PyInt e)) ->
  Z.of_nat (List.length ds) <= Int32.max ->
  Int32.in_range e ->
  InferDecimalPrecisionAndScale obj precision scale
  = ('(p, s) <- Infer (Z.of_nat (List.length ds)) e ;; Ret (OK, p, s)).
Proof.
  intros Htuple Hlen He. unfold InferDecimalPrecisionAndScale.
  rewrite Htuple. cbn [digits exponent].
  rewrite PyLong_AsLong_int
    by (unfold Int32.in_range, Int32.min, Int32.max in He; lia).
  rewrite (wrap_in_range e) by exact He.
  rewrite wrap_in_range
    by (unfold Int32.in_range, Int32.min, Int32.max in *; lia).
  reflexivity.
Qed.

Lemma InferDecimalPrecisionAndScale_counts_witness :
  InferDecimalPrecisionAndScale (decimal_object [7] 4 "7E+4") 0 0
  = Ret (OK, 5, 0).
Proof.
  assert (He : Int32.in_range 4) by (unfold Int32.in_range, Int32.min, Int32.max; lia).
  assert (Hlen : Z.of_nat (List.length [7]) <= Int32.max)
    by (cbn; unfold Int32.max; lia).
  exact (InferDecimalPrecisionAndScale_counts
           (decimal_object [7] 4 "7E+4") [7] 4 0 0 eq_refl Hlen He).
Defined.

(** X6: The exponent is cut to 32 bits before it is used: two decimals with the
    same digits whose exponents fit a C long and agree modulo 2^32 get the
    same answer. *)
Theorem InferDecimalPrecisionAndScale_exponent_cut
    (obj1 obj2 : PyObject) (ds : list Z) (e1 e2 precision scale : Z) :
  py_as_tuple obj1 = Some (mkDecimalTuple ds (PyInt e1)) ->
  py_as_tuple obj2 = Some (mkDecimalTuple ds (PyInt e2)) ->
  -9223372036854775808 <= e1 <= 9223372036854775807 ->
  -9223372036854775808 <= e2 <= 9223372036854775807 ->
  e1 mod 4294967296 = e2 mod 4294967296 ->
  InferDecimalPrecisionAndScale obj1 precision scale
  = InferDecimalPrecisionAndScale obj2 precision scale.
Proof.
  intros H1 H2 Hl1 Hl2 Hmod. unfold InferDecimalPrecisionAndScale.
  rewrite H1, H2. cbn [digits exponent].
  rewrite (PyLong_AsLong_int e1 Hl1), (PyLong_AsLong_int e2 Hl2).
  rewrite (wrap_congruent e1 e2 Hmod). reflexivity.
Qed.

Lemma InferDecimalPrecisionAndScale_exponent_cut_witness :
  InferDecimalPrecisionAndScale (decimal_object [1] 4294967296 "1E+4294967296") 0 0
  = InferDecimalPrecisionAndScale (decimal_object [1] 0 "1") 0 0.
Proof.
  apply (InferDecimalPrecisionAndScale_exponent_cut
           (decimal_object [1] 4294967296 "1E+4294967296")
           (decimal_object [1] 0 "1") [1] 4294967296 0 0 0 eq_refl eq_refl).
  - lia.
  - lia.
  - reflexivity.
Defined.

Lemma PyLong_AsLong_error (e : PyExponent) (err : Status) :
  PyLong_AsLong e = inl err -> ok err = false.
Proof.
  destruct e as [z | letter]; cbn.
  - destruct ((-9223372036854775808 <=? z) && (z <=? 9223372036854775807));
      intros H; inversion H; reflexivity.
  - intros H. inversion H. reflexivity.
Qed.

(** X7: The outputs are written on the path that returns OK and on no
    other. A call that does not return OK leaves both outputs as they were;
    a call that returns OK has read the tuple and an exponent that fits a C
    long, and its outputs are the pair of Infer on the digit count and the
    exponent, both cast to int32. *)
Theorem InferDecimalPrecisionAndScale_outputs
    (obj : PyObject) (precision scale : Z) (status : Status) (precision' scale' : Z) :
  InferDecimalPrecisionAndScale obj precision scale
  = Ret (status, precision', scale') ->
  (ok status = false -> precision' = precision /\ scale' = scale)
  /\ (ok status = true ->
      exists (t : DecimalTuple) (z : Z),
        py_as_tuple obj = Some t
        /\ PyLong_AsLong (exponent t) = inr z
        /\ Infer (Int32.wrap (Z.of_nat (List.length (digits t)))) (Int32.wrap z)
           = Ret (precision', scale')).
Proof.
  unfold InferDecimalPrecisionAndScale. intros Hret.
  destruct (py_as_tuple obj) as [t | ] eqn:Htuple.
  - destruct (PyLong_AsLong (exponent t)) as [err | z] eqn:Hlong.
    + inversion Hret; subst. split; [auto | ].
      intros Hok. apply PyLong_AsLong_error in Hlong. congruence.
    + apply bind_Ret in Hret. destruct Hret as ([p s] & Hinfer & Hret).
      inversion Hret; subst. split; [intros H; discriminate H | ].
      intros _. exists t, z. auto.
  - inversion Hret; subst. split; [auto | intros H; discriminate H].
Qed.

Lemma InferDecimalPrecisionAndScale_outputs_witness :
  InferDecimalPrecisionAndScale
    (mkPyObject true false (Some (mkDecimalTuple [0] (PyStr "F"))) (Some "Infinity"%string))
    11 22
  = Ret (PythonError "TypeError", 11, 22)
  /\ 11 = 11 /\ 22 = 22.
Proof.
  split; [reflexivity | ].
  apply (proj1 (InferDecimalPrecisionAndScale_outputs
                  (mkPyObject true false (Some (mkDecimalTuple [0] (PyStr "F")))
                              (Some "Infinity"%string))
                  11 22 (PythonError "TypeError") 11 22 eq_refl)).
  reflexivity.
Defined.

(** ** Update on a Python object *)

(** X8: On a decimal that is not a NaN, with fewer than 2^31 digits and an
    int32 exponent, Update is Infer on the counts followed by Update on the
    pair inferred. *)
Theorem Update_object_counts
    (m : DecimalMetadata) (obj : PyObject) (ds : list Z) (e : Z) :
  PyDecimal_Check obj = true ->
  PyDecimal_ISNAN obj = false ->
  py_as_tuple obj = Some (mkDecimalTuple ds (PyInt e)) ->
  Z.of_nat (List.length ds) <= Int32.max ->
  Int32.in_range e ->
  Update_object m obj
  = ('(p, s) <- Infer (Z.of_nat (List.length ds)) e ;; Update m p s).
Proof.
  intros Hdec Hnan Htuple Hlen He.
  unfold Update_object, InferDecimalPrecisionAndScale.
  rewrite Hdec, Hnan, Htuple. cbn [negb orb digits exponent].
  rewrite PyLong_AsLong_int
    by (unfold Int32.in_range, Int32.min, Int32.max in He; lia).
  rewrite (wrap_in_range e) by exact He.
  rewrite wrap_in_range
    by (unfold Int32.in_range, Int32.min, Int32.max in *; lia).
  destruct (Infer (Z.of_nat (List.length ds)) e) as [[p s] | ]; reflexivity.
Qed.

Lemma Update_object_counts_witness :
  Update_object (mkDecimalMetadata 3 2) (decimal_object [1; 2; 3; 4; 5] 0 "12345")
  = Ret (OK, mkDecimalMetadata 7 2).
Proof.
  assert (He : Int32.in_range 0) by (unfold Int32.in_range, Int32.min, Int32.max; lia).
  assert (Hlen : Z.of_nat (List.length [1; 2; 3; 4; 5]) <= Int32.max)
    by (cbn; unfold Int32.max; lia).
  exact (Update_object_counts (mkDecimalMetadata 3 2)
           (decimal_object [1; 2; 3; 4; 5] 0 "12345") [1; 2; 3; 4; 5] 0
           eq_refl eq_refl eq_refl Hlen He).
Defined.

(** X9: Update on an object changes the metadata only on the path that infers
    and returns OK: a status other than OK comes with the metadata as it was,
    and a change means the object is a decimal, is not a NaN, and the status
    is OK. *)
Theorem Update_object_frame
    (m : DecimalMetadata) (obj : PyObject) (status : Status) (m' : DecimalMetadata) :
  Update_object m obj = Ret (status, m') ->
  (ok status = false -> m' = m)
  /\ (m' <> m ->
      PyDecimal_Check obj = true /\ PyDecimal_ISNAN obj = false /\ status = OK).
Proof.
  unfold Update_object. intros Hret.
  destruct (PyDecimal_Check obj) eqn:Hdec; cbn [negb orb] in Hret.
  - destruct (PyDecimal_ISNAN obj) eqn:Hnan.
    + inversion Hret; subst. split; [reflexivity | ]. intros Hne. now elim Hne.
    + apply bind_Ret in Hret. destruct Hret as ([[st p] s] & Hinfer & Hret).
      destruct (ok st) eqn:Hok.
      * apply Update_Ret in Hret. destruct Hret as [-> _].
        split; [intros H; discriminate H | auto].
      * inversion Hret; subst. split; [reflexivity | ]. intros Hne. now elim Hne.
  - inversion Hret; subst. split; [reflexivity | ]. intros Hne. now elim Hne.
Qed.

Lemma Update_object_frame_witness :
  Update_object (mkDecimalMetadata 3 2)
    (mkPyObject true false (Some (mkDecimalTuple [0] (PyStr "F")))
                (Some "Infinity"%string))
  = Ret (PythonError "TypeError", mkDecimalMetadata 3 2)
  /\ mkDecimalMetadata 3 2 = mkDecimalMetadata 3 2.
Proof.
  split; [reflexivity | ].
  apply (proj1 (Update_object_frame (mkDecimalMetadata 3 2)
                  (mkPyObject true false (Some (mkDecimalTuple [0] (PyStr "F")))
                              (Some "Infinity"%string))
                  (PythonError "TypeError") (mkDecimalMetadata 3 2) eq_refl)).
  reflexivity.
Defined.

(** X10: A decimal that is not a NaN and whose exponent is not an integer (an
    infinity) is not skipped: Update fails on it and leaves the metadata as
    it was. *)
Theorem Update_object_special
    (m : DecimalMetadata) (obj : PyObject) (ds : list Z) (letter : string) :
  PyDecimal_Check obj = true ->
  PyDecimal_ISNAN obj = false ->
  py_as_tuple obj = Some (mkDecimalTuple ds (PyStr letter)) ->
  exists status, Update_object m obj = Ret (status, m) /\ ok status = false.
Proof.
  intros Hdec Hnan Htuple.
  unfold Update_object, InferDecimalPrecisionAndScale.
  rewrite Hdec, Hnan, Htuple. cbn.
  eexists. split; reflexivity.
Qed.

Lemma Update_object_special_witness :
  exists status,
    Update_object (mkDecimalMetadata 3 2)
      (mkPyObject true false (Some (mkDecimalTuple [0] (PyStr "F")))
                  (Some "Infinity"%string))
    = Ret (status, mkDecimalMetadata 3 2)
    /\ ok status = false.
Proof.
  exact (Update_object_special (mkDecimalMetadata 3 2)
           (mkPyObject true false (Some (mkDecimalTuple [0] (PyStr "F")))
                       (Some "Infinity"%string))
           [0] "F" eq_refl eq_refl eq_refl).
Defined.

(** ** The sentinel and the bounds of a pass *)

(** A call on a fresh DecimalMetadata. *)
Lemma Update_default (p s : Z) :
  Int32.in_range p ->
  Int32.in_range s ->
  Update DecimalMetadata_default p s = Ret (OK, mkDecimalMetadata p s).
Proof.
  intros Hp Hs. unfold Int32.in_range in Hp, Hs.
  destruct (Update_cases DecimalMetadata_default p s) as [[Hz Hlt] | Hcond].
  - subst s. rewrite Update_corrected by exact Hlt.
    cbn [DecimalMetadata_default scale_].
    rewrite Z.max_r by (unfold Int32.min; lia). unfold add32.
    rewrite Z.add_0_r. now in32.
  - rewrite Update_plain by exact Hcond.
    cbn [DecimalMetadata_default precision_ scale_].
    rewrite !Z.max_r by lia. reflexivity.
Qed.

(** X11: The first suggestion is stored as it is: INT32_MIN, the value of both
    fields of a fresh DecimalMetadata, is neutral for Update. In particular
    whatever pair Infer returns for the first value of a column is the
    metadata after that value. *)
Theorem Update_fresh :
  (forall p s : Z,
      Int32.in_range p -> Int32.in_range s ->
      Update DecimalMetadata_default p s = Ret (OK, mkDecimalMetadata p s))
  /\ (forall d e p s : Z,
         Infer d e = Ret (p, s) ->
         ('(p', s') <- Infer d e ;; Update DecimalMetadata_default p' s')
         = Ret (OK, mkDecimalMetadata p s)).
Proof.
  split.
  - intros p s. apply Update_default.
  - intros d e p s Hret. rewrite Hret. cbn [bind].
    apply Infer_Ret in Hret. destruct Hret as (Hp & Hs & _).
    apply Update_default; assumption.
Qed.

Lemma Update_fresh_witness :
  ('(p', s') <- Infer 3 (-5) ;; Update DecimalMetadata_default p' s')
  = Ret (OK, mkDecimalMetadata 5 5).
Proof.
  apply (proj2 Update_fresh 3 (-5) 5 5). reflexivity.
Defined.

Lemma Update_Ret_bounds (m : DecimalMetadata) (sp ss : Z) (st : Status)
    (m' : DecimalMetadata) :
  Update m sp ss = Ret (st, m') ->
  Z.max (precision_ m) sp <= precision_ m'
  /\ (precision_ m' = Z.max (precision_ m) sp
      \/ precision_ m' = sp + Z.max (scale_ m') 0)
  /\ scale_ m' = Z.max (scale_ m) ss
  /\ (ss <> 0 -> precision_ m' = Z.max (precision_ m) sp).
Proof.
  intros Hret. apply Update_Ret in Hret.
  destruct Hret as (_ & Hscale & [(Hz & Hlt & Hp) | (Hcond & Hp)]).
  - subst ss. rewrite Hscale, Hp. repeat split; lia.
  - rewrite Hscale, Hp. repeat split; lia.
Qed.

(** X12: The pair at the end of a pass is at least every pair suggested, and at
    least the pair it started from. *)
Theorem UpdateAll_covers (suggestions : list (Z * Z)) :
  forall (m final : DecimalMetadata),
    UpdateAll m suggestions = Ret final ->
    meta_le m final
    /\ Forall (fun u => fst u <= precision_ final /\ snd u <= scale_ final)
              suggestions.
Proof.
  induction suggestions as [ | [p s] rest IH]; intros m final Hret.
  - cbn in Hret. inversion Hret; subst. unfold meta_le. split; [lia | constructor].
  - apply UpdateAll_cons in Hret. destruct Hret as (st & m' & Hstep & Hrest).
    apply IH in Hrest. destruct Hrest as [[Hp Hs] Hall].
    apply Update_Ret_bounds in Hstep. destruct Hstep as (Hlo & _ & Hscale & _).
    unfold meta_le. split; [lia | ].
    constructor; [cbn [fst snd]; lia | exact Hall].
Qed.

Lemma UpdateAll_covers_witness :
  Forall (fun u => fst u <= 7 /\ snd u <= 2) [(3, 2); (5, 0)].
Proof.
  exact (proj2 (UpdateAll_covers [(3, 2); (5, 0)] DecimalMetadata_default
                  (mkDecimalMetadata 7 2) eq_refl)).
Defined.

Lemma UpdateAll_precision_bounds (suggestions : list (Z * Z)) :
  forall (m final : DecimalMetadata) (lower upper : Z),
    UpdateAll m suggestions = Ret final ->
    lower <= precision_ m ->
    precision_ m <= upper + Z.max (scale_ m) 0 ->
    running_max lower (map fst suggestions) <= precision_ final
    /\ precision_ final
       <= running_max upper (map fst suggestions) + Z.max (scale_ final) 0.
Proof.
  induction suggestions as [ | [p s] rest IH]; intros m final lower upper Hret Hlo Hhi.
  - cbn in Hret. inversion Hret; subst. cbn. lia.
  - apply UpdateAll_cons in Hret. destruct Hret as (st & m' & Hstep & Hrest).
    apply Update_Ret_bounds in Hstep. destruct Hstep as (Hmin & Hmax & Hscale & _).
    cbn [map fst running_max fold_left].
    apply (IH m' final (Z.max lower p) (Z.max upper p) Hrest); lia.
Qed.

(** X13: The final scale is the largest scale suggested, and the final precision
    lies between the largest precision suggested and that precision plus the
    final scale: the correction never adds more than the final scale. *)
Theorem UpdateAll_bounds (suggestions : list (Z * Z))
    (m final : DecimalMetadata) :
  UpdateAll m suggestions = Ret final ->
  scale_ final = running_max (scale_ m) (map snd suggestions)
  /\ running_max (precision_ m) (map fst suggestions) <= precision_ final
  /\ precision_ final
     <= running_max (precision_ m) (map fst suggestions) + Z.max (scale_ final) 0.
Proof.
  intros Hret. split; [apply UpdateAll_scale; exact Hret | ].
  apply (UpdateAll_precision_bounds suggestions m final _ _ Hret); lia.
Qed.

Lemma UpdateAll_bounds_witness :
  2 = running_max Int32.min [2; 0]
  /\ running_max Int32.min [3; 5] <= 7
  /\ 7 <= running_max Int32.min [3; 5] + Z.max 2 0.
Proof.
  exact (UpdateAll_bounds [(3, 2); (5, 0)] DecimalMetadata_default
           (mkDecimalMetadata 7 2) eq_refl).
Defined.

(** X14: A pass keeps the scale within the precision when it starts that way and
    every suggestion has a precision that is not negative and not below its
    scale, as the pairs of Infer are. *)
Theorem UpdateAll_scale_within_precision (suggestions : list (Z * Z)) :
  forall (m final : DecimalMetadata),
    UpdateAll m suggestions = Ret final ->
    scale_ m <= precision_ m ->
    Forall (fun u => 0 <= fst u /\ snd u <= fst u) suggestions ->
    scale_ final <= precision_ final.
Proof.
  induction suggestions as [ | [p s] rest IH]; intros m final Hret Hm Hall.
  - cbn in Hret. inversion Hret; subst. exact Hm.
  - inversion Hall as [ | u l [Hp Hs] Hrest]; subst. cbn [fst snd] in Hp, Hs.
    apply UpdateAll_cons in Hret. destruct Hret as (st & m' & Hstep & Hfinal).
    apply (IH m' final Hfinal); [ | exact Hrest].
    apply Update_Ret in Hstep.
    destruct Hstep as (_ & Hscale & [(Hz & Hlt & Hprec) | (_ & Hprec)]);
      rewrite Hscale, Hprec; lia.
Qed.

Lemma UpdateAll_scale_within_precision_witness : 2 <= 7.
Proof.
  apply (UpdateAll_scale_within_precision [(3, 2); (5, 0)] DecimalMetadata_default
           (mkDecimalMetadata 7 2) eq_refl).
  - cbn. lia.
  - repeat constructor; cbn; lia.
Defined.

(** X15: An integer of precision p followed by a fraction of scale s > 0 with no
    more digits ends in (p, s), which leaves p - s digits before the point;
    the same two in the other order end in (p + s, s). *)
Theorem UpdateAll_integer_and_fraction (p q s : Z) :
  Int32.in_range p ->
  Int32.in_range q ->
  Int32.in_range s ->
  Int32.min < p ->
  q <= p ->
  0 < s ->
  UpdateAll DecimalMetadata_default [(p, 0); (q, s)]
  = Ret (mkDecimalMetadata p s)
  /\ (q < p -> p + s <= Int32.max ->
      UpdateAll DecimalMetadata_default [(q, s); (p, 0)]
      = Ret (mkDecimalMetadata (p + s) s)).
Proof.
  intros Hp Hq Hs Hmin Hle Hpos.
  assert (H0 : Int32.in_range 0)
    by (unfold Int32.in_range, Int32.min, Int32.max; lia).
  cbn [UpdateAll]. rewrite !Update_default by assumption. cbn [bind]. split.
  - rewrite Update_plain.
    + cbn [bind precision_ scale_]. rewrite Z.max_l by exact Hle.
      rewrite Z.max_r by lia. reflexivity.
    + replace (s =? 0) with false by (symmetry; apply Z.eqb_neq; lia).
      reflexivity.
  - intros Hlt Hsum. rewrite Update_corrected by exact Hlt.
    cbn [scale_]. rewrite Z.max_l by lia. unfold add32.
    unfold Int32.in_range in *. in32. reflexivity.
Qed.

Lemma UpdateAll_integer_and_fraction_witness :
  UpdateAll DecimalMetadata_default [(5, 0); (3, 2)] = Ret (mkDecimalMetadata 5 2)
  /\ UpdateAll DecimalMetadata_default [(3, 2); (5, 0)] = Ret (mkDecimalMetadata 7 2).
Proof.
  assert (H5 : Int32.in_range 5) by (unfold Int32.in_range, Int32.min, Int32.max; lia).
  assert (H3 : Int32.in_range 3) by (unfold Int32.in_range, Int32.min, Int32.max; lia).
  assert (H2 : Int32.in_range 2) by (unfold Int32.in_range, Int32.min, Int32.max; lia).
  assert (Hmin : Int32.min < 5) by (unfold Int32.min; lia).
  assert (Hle : 3 <= 5) by lia.
  assert (Hpos : 0 < 2) by lia.
  destruct (UpdateAll_integer_and_fraction 5 3 2 H5 H3 H2 Hmin Hle Hpos)
    as [Hfirst Hsecond].
  split; [exact Hfirst | ].
  apply Hsecond; [lia | unfold Int32.max; lia].
Defined.

(** ** What a conversion leaves behind *)

(** X16: A conversion that returns OK has parsed the text of the object, found a
    precision within the target's, and holds in the output either the parsed
    value, the scales being equal, or the output of a rescale that returned
    OK. It never returns OK past the precision check. *)
Theorem Convert_ok_inversion (ops : Decimal128Ops)
    (python_decimal : PyObject) (target : DecimalType) (out out' : Decimal128) :
  DecimalFromPythonDecimal python_decimal target out = (OK, out') ->
  exists (text : string) (value : Decimal128) (inferred_precision inferred_scale : Z),
    py_str python_decimal = Some text
    /\ FromString text out = (OK, value, inferred_precision, inferred_scale)
    /\ inferred_precision <= type_precision target
    /\ ((inferred_scale = type_scale target /\ out' = value)
        \/ (inferred_scale <> type_scale target
            /\ Rescale value inferred_scale (type_scale target) = (OK, out'))).
Proof.
  unfold DecimalFromPythonDecimal, PythonDecimalToString, PyObject_StdStringStr.
  destruct (py_str python_decimal) as [text | ]; cbn [ok negb];
    [ | intros H; discriminate H].
  destruct (FromString text out) as [[[status value] ip] isc] eqn:Hparse.
  destruct (ok status) eqn:Hok; cbn [negb];
    [ | intros H; inversion H; subst; discriminate Hok].
  apply ok_true in Hok. subst status.
  destruct (ip >? type_precision target) eqn:Hprec; [intros H; discriminate H | ].
  rewrite Z.gtb_ltb in Hprec. apply Z.ltb_ge in Hprec.
  destruct (type_scale target =? isc) eqn:Hscale; cbn [negb].
  - apply Z.eqb_eq in Hscale. intros H.
    assert (Hvalue : out' = value) by congruence.
    exists text, value, ip, isc. split; [reflexivity | ].
    split; [exact Hparse | ]. split; [exact Hprec | ].
    left. split; [symmetry; exact Hscale | exact Hvalue].
  - apply Z.eqb_neq in Hscale.
    destruct (Rescale value isc (type_scale target)) as [st o] eqn:Hres.
    destruct (ok st) eqn:Hok; cbn [negb];
      [ | intros H; inversion H; subst; discriminate Hok].
    apply ok_true in Hok. subst st. intros H.
    assert (Hout : o = out') by congruence. subst o.
    exists text, value, ip, isc. split; [reflexivity | ].
    split; [exact Hparse | ]. split; [exact Hprec | ].
    right. split; [congruence | exact Hres].
Qed.

Lemma Convert_ok_inversion_witness :
  exists (text : string) (value : Decimal128) (inferred_precision inferred_scale : Z),
    Some "1.5"%string = Some text
    /\ FromString text 0 = (OK, value, inferred_precision, inferred_scale)
    /\ inferred_precision <= 5
    /\ ((inferred_scale = 3 /\ 1500 = value)
        \/ (inferred_scale <> 3 /\ Rescale value inferred_scale 3 = (OK, 1500))).
Proof.
  exact (Convert_ok_inversion SpecDecimal128 (decimal_object [1; 5] (-1) "1.5")
           (mkDecimalType 5 3) 0 1500 eq_refl).
Defined.

(** X17: After a failure the output is not always what it was. When [str] of
    the object raises, the parser is not called and the output is untouched;
    when the precision check fails, the output already holds the parsed
    value. *)
Theorem Convert_output_on_failure (ops : Decimal128Ops)
    (python_decimal : PyObject) (target : DecimalType) (out : Decimal128) :
  (py_str python_decimal = None ->
   snd (DecimalFromPythonDecimal python_decimal target out) = out
   /\ ok (fst (DecimalFromPythonDecimal python_decimal target out)) = false)
  /\ (forall (text : string) (value : Decimal128)
             (inferred_precision inferred_scale : Z),
         py_str python_decimal = Some text ->
         FromString text out = (OK, value, inferred_precision, inferred_scale) ->
         type_precision target < inferred_precision ->
         snd (DecimalFromPythonDecimal python_decimal target out) = value
         /\ ok (fst (DecimalFromPythonDecimal python_decimal target out)) = false).
Proof.
  split.
  - intros Hstr. unfold DecimalFromPythonDecimal, PythonDecimalToString,
      PyObject_StdStringStr. rewrite Hstr. cbn. split; reflexivity.
  - intros text value ip isc Hstr Hparse Hgt.
    rewrite (Convert_overflow python_decimal text target out Hstr value ip isc
               Hparse Hgt).
    split; reflexivity.
Qed.

Lemma Convert_output_on_failure_witness :
  snd (DecimalFromPythonDecimal
         (decimal_object [1; 2; 3; 4; 5] 0 "12345") (mkDecimalType 4 0) 77)
  = 12345.
Proof.
  assert (Hgt : type_precision (mkDecimalType 4 0) < 5) by (cbn; lia).
  exact (proj1 (proj2 (Convert_output_on_failure SpecDecimal128
                         (decimal_object [1; 2; 3; 4; 5] 0 "12345")
                         (mkDecimalType 4 0) 77)
                  "12345"%string 12345 5 0 eq_refl eq_refl Hgt)).
Defined.
